(** * RVL-Node: the [RVL] coordinator class of [src/index.ts]

    A shallow embedding of the class [RVL] and of the module-level flag
    [created], with the properties of its constructor, its methods and the
    closures it registers with the bridge.

    The module [./bridge] and the declarations of [./types] lie outside
    this development.  What [index.ts] imports from them is taken as
    follows:
    - the constants [MAX_NUM_WAVES], [DEFAULT_TIME_PERIOD],
      [DEFAULT_DISTANCE_PERIOD], the type [IWave] and the value that
      [createEmptyWave ()] returns are the fields of the class [Imports];
    - a call of a bridge function is recorded, with its arguments, in a
      chronological [trace]; the bridge never throws and never calls back
      synchronously: what it delivers comes later, as a [Signal];
    - [createEmptyWaveParameters] and the handler slots of the bridge are
      modelled from the specification, and say so.

    A JavaScript [number] is an IEEE 754 binary64 value: Rocq's primitive
    [float].  The getter [animationTime], which only asks the bridge for
    its clock, is left out. *)

From Stdlib Require Import String Ascii DecimalString PrimFloat.
From Stdlib Require Import List Bool Arith Lia.
Import ListNotations.

Set Implicit Arguments.

(** ** Values *)

Definition number : Set := float.

(** ['controller' | 'receiver'] *)
Inductive Mode : Set := controller | receiver.

(** ['error' | 'info' | 'debug'] *)
Inductive LogLevel : Set := log_error | log_info | log_debug.

Definition Mode_eqb (a b : Mode) : bool :=
  match a, b with
  | controller, controller | receiver, receiver => true
  | _, _ => false
  end.

Definition Mode_name (m : Mode) : string :=
  match m with
  | controller => "controller"%string
  | receiver => "receiver"%string
  end.

(** [interface IRVLOptions]: a field marked [?] may be absent. *)
Module IRVLOptions.
Record t : Set := make {
  networkInterface : string;
  channel : number;
  port : option number;
  mode : option Mode;
  logLevel : option LogLevel;
  enableClockSync : option bool
}.
End IRVLOptions.

(** A destructuring default [x = d]: [d] replaces an absent ([undefined])
    property. *)
Definition or_default {A : Type} (d : A) (x : option A) : A :=
  match x with
  | Some v => v
  | None => d
  end.

(** ** Exceptions

    Every [throw] of the file raises a plain [Error]; the constructors name
    the four kinds of throw site, and [message] gives the text each one
    carries. *)
Inductive Error : Set :=
| AlreadyCreatedError
| NotInitializedError (method : string)
| WrongRoleError (mode : Mode)
| TooManyWavesError.

Inductive Result (A : Type) : Type :=
| Returns (a : A)
| Throws (e : Error).
Arguments Throws {A} e.

(** ** State and exceptions

    A computation runs on a state and either returns or throws; in both
    cases the state it leaves is the one it had reached (a JavaScript
    exception undoes nothing). *)
Definition M (S A : Type) : Type := S -> Result A * S.

Definition ret {S A : Type} (a : A) : M S A := fun s => (Returns a, s).

Definition bind {S A B : Type} (m : M S A) (k : A -> M S B) : M S B :=
  fun s =>
    match m s with
    | (Returns a, s') => k a s'
    | (Throws e, s') => (Throws e, s')
    end.

Definition throw {S A : Type} (e : Error) : M S A := fun s => (Throws e, s).

Definition gets {S A : Type} (f : S -> A) : M S A := fun s => (Returns (f s), s).

Definition modify {S : Type} (f : S -> S) : M S unit := fun s => (Returns tt, f s).

Declare Scope rvl_scope.
Delimit Scope rvl_scope with rvl.
Notation "x <- m ;; k" := (bind m (fun x => k))
  (at level 61, m at next level, right associativity) : rvl_scope.
Notation "m ;; k" := (bind m (fun _ => k))
  (at level 61, right associativity) : rvl_scope.
Open Scope rvl_scope.

(** ** What [./types] and [./bridge] provide

    The type of a wave, the value of [createEmptyWave ()] and the three
    constants, as one interface: the development holds for every
    implementation of it. *)
Class Imports : Type := {
  IWave : Type;
  createEmptyWave : IWave;
  MAX_NUM_WAVES : nat;
  DEFAULT_TIME_PERIOD : number;
  DEFAULT_DISTANCE_PERIOD : number
}.

Section Coordinator.

Context `{Imports}.

(** [interface IWaveParameters]: [setWaveParameters] gives both periods a
    default, so each may be absent. *)
Record IWaveParameters : Type := {
  waves : list IWave;
  timePeriod : option number;
  distancePeriod : option number
}.

(** Modelled from the spec: [createEmptyWaveParameters] of [./bridge],
    which is missing; section 4.1 has it return [MAX_NUM_WAVES] empty
    waves and the default periods. *)
Definition createEmptyWaveParameters : IWaveParameters :=
  {| waves := repeat createEmptyWave MAX_NUM_WAVES;
     timePeriod := Some DEFAULT_TIME_PERIOD;
     distancePeriod := Some DEFAULT_DISTANCE_PERIOD |}.

(** ** The object *)

(** The private fields of an [RVL] instance. *)
Record RVL : Type := {
  _isInitialized : bool;
  _waveParameters : IWaveParameters;
  _mode : Mode;
  _brightness : number;
  _powerState : bool
}.

(** [interface IEvents] *)
Inductive Event : Type :=
| initialized
| waveParametersUpdated (payload : IWaveParameters)
| powerStateUpdated (payload : bool)
| brightnessUpdated (payload : number).

(** The calls [index.ts] makes into [./bridge]. *)
Inductive BridgeCall : Type :=
| Init (networkInterface : string) (port : number) (mode : Mode)
       (channel : number) (logLevel : LogLevel) (enableClockSync : bool)
| Start
| Stop
| SetWaveParameters (parameters : IWaveParameters)
| SetPowerState (newPowerState : bool)
| SetBrightness (newBrightness : number)
| ListenForWaveParameterUpdates
| ListenForPowerStateUpdates
| ListenForBrightnessUpdates.

(** What the outside observes, in the order it happens: a call into the
    bridge, or an event given to the listeners of the instance.  [emit]
    runs the listeners at once, so an emission carries the fields as the
    listeners find them. *)
Inductive Effect : Type :=
| Call (c : BridgeCall)
| Emit (e : Event) (seen : RVL).

(** Modelled from the spec: the handler slots of [./bridge] (section 4.3,
    one persistent callback for each kind of notification and one ready
    callback).  The constructor of [RVL] is the only code that fills them,
    each with one closure, so a slot is a flag. *)
Record Bridge : Set := {
  waveParameterListener : bool;
  powerStateListener : bool;
  brightnessListener : bool;
  readyCallback : bool
}.

Definition no_listeners : Bridge :=
  {| waveParameterListener := false; powerStateListener := false;
     brightnessListener := false; readyCallback := false |}.

Definition all_listeners : Bridge :=
  {| waveParameterListener := true; powerStateListener := true;
     brightnessListener := true; readyCallback := true |}.

Definition register (c : BridgeCall) (b : Bridge) : Bridge :=
  match c with
  | ListenForWaveParameterUpdates =>
      {| waveParameterListener := true;
         powerStateListener := powerStateListener b;
         brightnessListener := brightnessListener b;
         readyCallback := readyCallback b |}
  | ListenForPowerStateUpdates =>
      {| waveParameterListener := waveParameterListener b;
         powerStateListener := true;
         brightnessListener := brightnessListener b;
         readyCallback := readyCallback b |}
  | ListenForBrightnessUpdates =>
      {| waveParameterListener := waveParameterListener b;
         powerStateListener := powerStateListener b;
         brightnessListener := true;
         readyCallback := readyCallback b |}
  | Init _ _ _ _ _ _ =>
      {| waveParameterListener := waveParameterListener b;
         powerStateListener := powerStateListener b;
         brightnessListener := brightnessListener b;
         readyCallback := true |}
  | _ => b
  end.

(** What outlives a call: the module-level [created], the bridge, and the
    trace. *)
Record Env : Type := {
  created : bool;
  bridge : Bridge;
  trace : list Effect
}.

(** A process that has loaded the module and constructed nothing yet. *)
Definition fresh : Env :=
  {| created := false; bridge := no_listeners; trace := [] |}.

(** A process with its instance. *)
Record State : Type := {
  this : RVL;
  env : Env
}.

(** *** Primitive steps *)

(** One more effect at the end of the trace. *)
Definition log (x : Effect) (e : Env) : Env :=
  {| created := created e; bridge := bridge e; trace := trace e ++ [x] |}.

(** A call into the bridge: recorded, and a callback it passes fills its
    slot. *)
Definition call (c : BridgeCall) : M Env unit :=
  modify (fun e =>
    log (Call c)
      {| created := created e;
         bridge := register c (bridge e);
         trace := trace e |}).

(** [created = b] *)
Definition set_created (b : bool) : M Env unit :=
  modify (fun e =>
    {| created := b; bridge := bridge e; trace := trace e |}).

(** A statement on the module or the bridge, run by a method. *)
Definition lift {A : Type} (m : M Env A) : M State A :=
  fun s =>
    let (r, e) := m (env s) in (r, {| this := this s; env := e |}).

(** Assignments to one field of [this]. *)
Definition with_isInitialized (v : bool) (o : RVL) : RVL :=
  {| _isInitialized := v;
     _waveParameters := _waveParameters o;
     _mode := _mode o;
     _brightness := _brightness o;
     _powerState := _powerState o |}.

Definition with_waveParameters (v : IWaveParameters) (o : RVL) : RVL :=
  {| _isInitialized := _isInitialized o;
     _waveParameters := v;
     _mode := _mode o;
     _brightness := _brightness o;
     _powerState := _powerState o |}.

Definition with_brightness (v : number) (o : RVL) : RVL :=
  {| _isInitialized := _isInitialized o;
     _waveParameters := _waveParameters o;
     _mode := _mode o;
     _brightness := v;
     _powerState := _powerState o |}.

Definition with_powerState (v : bool) (o : RVL) : RVL :=
  {| _isInitialized := _isInitialized o;
     _waveParameters := _waveParameters o;
     _mode := _mode o;
     _brightness := _brightness o;
     _powerState := v |}.

Definition update (f : RVL -> RVL) : M State unit :=
  modify (fun s => {| this := f (this s); env := env s |}).

(** [this.emit(name, payload)].  The listeners of the application are
    taken to return: what one of them throws, [emit] would throw on into
    the closure that emits. *)
Definition emit (e : Event) : M State unit :=
  modify (fun s => {| this := this s; env := log (Emit e (this s)) (env s) |}).

(** ** The text of the exceptions *)

Definition dquote : string := String (ascii_of_nat 34) EmptyString.

Definition decimal (n : nat) : string := NilEmpty.string_of_uint (Nat.to_uint n).

Definition message (e : Error) : string :=
  (match e with
   | AlreadyCreatedError =>
       "Currently the RVL class can only be instantiated once per process."
   | NotInitializedError method =>
       "Cannot call " ++ dquote ++ method ++ dquote ++
       " until the platform has been initialized and the " ++
       dquote ++ "initialized" ++ dquote ++ " event has been emitted"
   | WrongRoleError m =>
       "Cannot set wave parameters while in " ++ Mode_name m ++ " mode"
   | TooManyWavesError =>
       "Only " ++ decimal MAX_NUM_WAVES ++ " waves are supported at a time"
   end)%string.

(** ** The getters *)

Definition waveParameters (o : RVL) : IWaveParameters := _waveParameters o.
Definition mode (o : RVL) : Mode := _mode o.
Definition powerState (o : RVL) : bool := _powerState o.
Definition brightness (o : RVL) : number := _brightness o.

(** ** The constructor

    [super()] runs first and leaves nothing to observe.  Then the guard on
    [created]; the field initialisers and the two assignments give the
    object its first values; the three listeners are registered, and [init]
    is called with the options and their defaults.  [init] is asynchronous:
    its callback runs later, on the signal [Ready]. *)
Definition new_RVL (o : IRVLOptions.t) : M Env RVL :=
  let networkInterface := IRVLOptions.networkInterface o in
  let port := or_default 4978%float (IRVLOptions.port o) in
  let mode := or_default receiver (IRVLOptions.mode o) in
  let logLevel := or_default log_info (IRVLOptions.logLevel o) in
  let channel := IRVLOptions.channel o in
  let enableClockSync := or_default false (IRVLOptions.enableClockSync o) in
  c <- gets created ;;
  if c then throw AlreadyCreatedError
  else
    set_created true ;;
    call ListenForWaveParameterUpdates ;;
    call ListenForPowerStateUpdates ;;
    call ListenForBrightnessUpdates ;;
    call (Init networkInterface port mode channel logLevel enableClockSync) ;;
    ret {| _isInitialized := false;
           _waveParameters := createEmptyWaveParameters;
           _mode := mode;
           _brightness := 0%float;
           _powerState := false |}.

(** ** The closures given to the bridge *)

(** [(newParameters) => { ... }], given to [listenForWaveParameterUpdates] *)
Definition onWaveParameterUpdate (newParameters : IWaveParameters) : M State unit :=
  update (with_waveParameters newParameters) ;;
  p <- gets (fun s => _waveParameters (this s)) ;;
  emit (waveParametersUpdated p).

(** [(newPowerState) => { ... }], given to [listenForPowerStateUpdates] *)
Definition onPowerStateUpdate (newPowerState : bool) : M State unit :=
  update (with_powerState newPowerState) ;;
  p <- gets (fun s => _powerState (this s)) ;;
  emit (powerStateUpdated p).

(** [(newBrightness) => { ... }], given to [listenForBrightnessUpdates] *)
Definition onBrightnessUpdate (newBrightness : number) : M State unit :=
  update (with_brightness newBrightness) ;;
  b <- gets (fun s => _brightness (this s)) ;;
  emit (brightnessUpdated b).

(** [() => { ... }], the last argument of [init] *)
Definition onInit : M State unit :=
  p <- gets (fun s => _waveParameters (this s)) ;;
  lift (call (SetWaveParameters p)) ;;
  update (with_isInitialized true) ;;
  emit initialized.

(** ** The methods *)

Definition start : M State unit :=
  i <- gets (fun s => _isInitialized (this s)) ;;
  if negb i then throw (NotInitializedError "start"%string)
  else lift (call Start).

Definition stop : M State unit :=
  i <- gets (fun s => _isInitialized (this s)) ;;
  if negb i then throw (NotInitializedError "stop"%string)
  else lift (call Stop).

(** The loop [for (let i = waves.length; i < MAX_NUM_WAVES; i++)
    waves.push({ ...createEmptyWave() })], on the clone of the caller's
    array.  [fuel] bounds the number of rounds; [MAX_NUM_WAVES] rounds are
    always enough ([fill_enough] below). *)
Fixpoint fill (fuel i : nat) (ws : list IWave) : list IWave :=
  match fuel with
  | O => ws
  | S fuel' =>
      if (i <? MAX_NUM_WAVES)%nat
      then fill fuel' (S i) (ws ++ [createEmptyWave])
      else ws
  end.

Definition setWaveParameters (arg : IWaveParameters) : M State unit :=
  let ws := waves arg in
  let tp := or_default DEFAULT_TIME_PERIOD (timePeriod arg) in
  let dp := or_default DEFAULT_DISTANCE_PERIOD (distancePeriod arg) in
  i <- gets (fun s => _isInitialized (this s)) ;;
  if negb i then throw (NotInitializedError "setWaveParameters"%string)
  else
    m <- gets (fun s => _mode (this s)) ;;
    if negb (Mode_eqb m controller) then throw (WrongRoleError m)
    else
      if (MAX_NUM_WAVES <? length ws)%nat then throw TooManyWavesError
      else
        let ws' := fill MAX_NUM_WAVES (length ws) ws in
        update (with_waveParameters
          {| waves := ws'; timePeriod := Some tp; distancePeriod := Some dp |}) ;;
        p <- gets (fun s => _waveParameters (this s)) ;;
        lift (call (SetWaveParameters p)).

Definition setPowerState (newPowerState : bool) : M State unit :=
  lift (call (SetPowerState newPowerState)).

Definition setBrightness (newBrightness : number) : M State unit :=
  lift (call (SetBrightness newBrightness)).

(** ** The process as a machine

    After the construction, the application calls methods and the bridge
    delivers signals, one at a time (section 5: one thread, no two callbacks
    at once). *)

(** Modelled from the spec: what [./bridge] delivers (section 4.3). *)
Inductive Signal : Type :=
| WaveParametersReceived (newParameters : IWaveParameters)
| PowerStateReceived (newPowerState : bool)
| BrightnessReceived (newBrightness : number)
| Ready.

(** Modelled from the spec: the bridge runs the callback of the slot, when
    the slot is filled. *)
Definition deliver (sig : Signal) : M State unit :=
  match sig with
  | WaveParametersReceived p =>
      r <- gets (fun s => waveParameterListener (bridge (env s))) ;;
      if r then onWaveParameterUpdate p else ret tt
  | PowerStateReceived b =>
      r <- gets (fun s => powerStateListener (bridge (env s))) ;;
      if r then onPowerStateUpdate b else ret tt
  | BrightnessReceived n =>
      r <- gets (fun s => brightnessListener (bridge (env s))) ;;
      if r then onBrightnessUpdate n else ret tt
  | Ready =>
      r <- gets (fun s => readyCallback (bridge (env s))) ;;
      if r then onInit else ret tt
  end.

Inductive Input : Type :=
| do_start
| do_stop
| do_setWaveParameters (arg : IWaveParameters)
| do_setPowerState (newPowerState : bool)
| do_setBrightness (newBrightness : number)
| signal (sig : Signal).

Definition perform (i : Input) : M State unit :=
  match i with
  | do_start => start
  | do_stop => stop
  | do_setWaveParameters arg => setWaveParameters arg
  | do_setPowerState b => setPowerState b
  | do_setBrightness n => setBrightness n
  | signal sig => deliver sig
  end.

(** The caller may catch what a method throws; the state stays as the
    method left it. *)
Definition step (s : State) (i : Input) : State := snd (perform i s).

Definition run (s : State) (inputs : list Input) : State :=
  fold_left step inputs s.

(** The states a process can be in: [construct] gives the first one. *)
Definition construct (o : IRVLOptions.t) (e : Env) : Result State :=
  match new_RVL o e with
  | (Returns obj, e') => Returns {| this := obj; env := e' |}
  | (Throws err, _) => Throws err
  end.

(** ** Reading a run *)

Definition is_initialized_emission (x : Effect) : bool :=
  match x with
  | Emit initialized _ => true
  | _ => false
  end.

(** How many times [initialized] has been emitted. *)
Definition initialized_emissions (t : list Effect) : nat :=
  length (filter is_initialized_emission t).

Definition is_Ready (i : Input) : bool :=
  match i with
  | signal Ready => true
  | _ => false
  end.

(** How many times the bridge has signalled that it is ready. *)
Definition ready_signals (inputs : list Input) : nat :=
  length (filter is_Ready inputs).

(** The wave parameters that the bridge delivers with [i], if [i] is such
    a delivery, have [MAX_NUM_WAVES] waves. *)
Definition delivers_full_length (i : Input) : Prop :=
  match i with
  | signal (WaveParametersReceived p) => length (waves p) = MAX_NUM_WAVES
  | _ => True
  end.

(** The inputs that may assign a field: its notification and, for the wave
    parameters, the method that sets them. *)
Definition writes_waveParameters (i : Input) : bool :=
  match i with
  | signal (WaveParametersReceived _) | do_setWaveParameters _ => true
  | _ => false
  end.

Definition writes_powerState (i : Input) : bool :=
  match i with
  | signal (PowerStateReceived _) => true
  | _ => false
  end.

Definition writes_brightness (i : Input) : bool :=
  match i with
  | signal (BrightnessReceived _) => true
  | _ => false
  end.

(** ** Counting in a trace and in a run *)

Definition is_emission (x : Effect) : bool :=
  match x with
  | Emit _ _ => true
  | Call _ => false
  end.

(** How many events have been emitted, of any kind. *)
Definition emissions (t : list Effect) : nat :=
  length (filter is_emission t).

Definition is_signal (i : Input) : bool :=
  match i with
  | signal _ => true
  | _ => false
  end.

(** How many of the inputs come from the bridge. *)
Definition signals (inputs : list Input) : nat :=
  length (filter is_signal inputs).

Definition is_wave_push (x : Effect) : bool :=
  match x with
  | Call (SetWaveParameters _) => true
  | _ => false
  end.

(** How many times wave parameters have been pushed to the bridge. *)
Definition wave_pushes (t : list Effect) : nat :=
  length (filter is_wave_push t).

Definition delivers_waveParameters (i : Input) : bool :=
  match i with
  | signal (WaveParametersReceived _) => true
  | _ => false
  end.

(** The wave parameters pushed to the bridge with [x], if [x] is such a
    push, have [MAX_NUM_WAVES] waves. *)
Definition pushes_full_length (x : Effect) : Prop :=
  match x with
  | Call (SetWaveParameters p) => length (waves p) = MAX_NUM_WAVES
  | _ => True
  end.

(** The [throw] statements of the file, with the values that their
    templates can take. *)
Definition thrown : list Error :=
  [AlreadyCreatedError;
   NotInitializedError "start"%string;
   NotInitializedError "stop"%string;
   NotInitializedError "setWaveParameters"%string;
   WrongRoleError receiver;
   TooManyWavesError].

End Coordinator.

(** ** A process to compute with

    An implementation of [Imports] with eight waves, as in the scenario of
    the specification; a wave is a number, the empty wave is [0]. *)
Definition sample : Imports :=
  {| IWave := nat;
     createEmptyWave := 0;
     MAX_NUM_WAVES := 8;
     DEFAULT_TIME_PERIOD := 255%float;
     DEFAULT_DISTANCE_PERIOD := 32%float |}.

Definition controller_options : IRVLOptions.t :=
  IRVLOptions.make "wlan0" 1%float None (Some controller) None None.

(** Only the required options: the mode defaults to ['receiver']. *)
Definition default_options : IRVLOptions.t :=
  IRVLOptions.make "wlan0" 1%float None None None None.

Definition two_waves : @IWaveParameters sample :=
  @Build_IWaveParameters sample [1; 2] None None.

Definition nine_waves : @IWaveParameters sample :=
  @Build_IWaveParameters sample [1; 2; 3; 4; 5; 6; 7; 8; 9] None None.

Definition no_waves : @IWaveParameters sample :=
  @Build_IWaveParameters sample [] None None.

Definition eight_waves : @IWaveParameters sample :=
  @Build_IWaveParameters sample [8; 7; 6; 5; 4; 3; 2; 1]
    (Some 100%float) (Some 10%float).

(** A run: the bridge gets ready, the application sets two waves, the
    bridge delivers eight waves, a power state and a brightness, and the
    application stops. *)
Definition a_run : list (@Input sample) :=
  [signal Ready;
   do_setWaveParameters two_waves;
   signal (WaveParametersReceived eight_waves);
   signal (PowerStateReceived true);
   signal (BrightnessReceived 128%float);
   do_stop].

(** A run that brings no power state from the bridge. *)
Definition a_run_without_power_news : list (@Input sample) :=
  [do_setPowerState false;
   signal (BrightnessReceived 64%float);
   signal Ready;
   do_start].

(** Method calls only. *)
Definition calls_only : list (@Input sample) :=
  [do_start;
   do_setWaveParameters two_waves;
   do_setPowerState true;
   do_setBrightness 9%float;
   do_stop].

(** A run in which the application tries to set wave parameters and the
    bridge delivers none. *)
Definition a_run_without_wave_news : list (@Input sample) :=
  [signal Ready;
   do_setWaveParameters two_waves;
   signal (PowerStateReceived true);
   do_start].

(** Before the bridge is ready: notifications and calls only. *)
Definition an_early_run : list (@Input sample) :=
  [signal (PowerStateReceived true);
   do_setBrightness 64%float;
   do_start].

(** * Properties *)

Section Properties.

Context `{Imports}.

(** ** Running the monad *)

Ltac unfold_m :=
  unfold start, stop, setWaveParameters, setPowerState, setBrightness,
    onWaveParameterUpdate, onPowerStateUpdate, onBrightnessUpdate, onInit,
    emit, update, lift, call, set_created, bind, gets, modify, throw, ret.

Ltac run_m := unfold_m; cbn -[Nat.ltb fill].

(** A state, field by field: both sides of an equation between states then
    compute. *)
Ltac open_state s :=
  let o := fresh "o" in
  let e := fresh "e" in
  let b := fresh "b" in
  destruct s as [o e]; destruct o, e as [? b ?]; destruct b;
  cbn in * |-; subst.

(** ** The padding loop *)

Lemma fill_enough (fuel i : nat) (ws : list IWave) :
  MAX_NUM_WAVES - i <= fuel ->
  fill fuel i ws = ws ++ repeat createEmptyWave (MAX_NUM_WAVES - i).
Proof.
  revert i ws.
  induction fuel as [|fuel IH]; intros i ws Hfuel; cbn [fill].
  - replace (MAX_NUM_WAVES - i) with 0 by lia.
    cbn. now rewrite app_nil_r.
  - destruct (Nat.ltb_spec i MAX_NUM_WAVES) as [Hlt|Hge].
    + rewrite IH by lia.
      replace (MAX_NUM_WAVES - i) with (S (MAX_NUM_WAVES - S i)) by lia.
      cbn [repeat]. now rewrite <- app_assoc.
    + replace (MAX_NUM_WAVES - i) with 0 by lia.
      cbn. now rewrite app_nil_r.
Qed.

Lemma fill_from_length (ws : list IWave) :
  fill MAX_NUM_WAVES (length ws) ws
  = ws ++ repeat createEmptyWave (MAX_NUM_WAVES - length ws).
Proof. apply fill_enough. lia. Qed.

Lemma fill_length (ws : list IWave) :
  length ws <= MAX_NUM_WAVES ->
  length (fill MAX_NUM_WAVES (length ws) ws) = MAX_NUM_WAVES.
Proof.
  intros Hle. rewrite fill_from_length, length_app, repeat_length. lia.
Qed.

(** ** The guards of [setWaveParameters] *)

Lemma setWaveParameters_accepts (s : State) (arg : IWaveParameters) :
  _isInitialized (this s) = true ->
  _mode (this s) = controller ->
  length (waves arg) <= MAX_NUM_WAVES ->
  let p :=
    {| waves := fill MAX_NUM_WAVES (length (waves arg)) (waves arg);
       timePeriod := Some (or_default DEFAULT_TIME_PERIOD (timePeriod arg));
       distancePeriod :=
         Some (or_default DEFAULT_DISTANCE_PERIOD (distancePeriod arg)) |} in
  setWaveParameters arg s
  = (Returns tt,
     {| this := with_waveParameters p (this s);
        env := log (Call (SetWaveParameters p)) (env s) |}).
Proof.
  intros Hinit Hmode Hlen. open_state s. run_m.
  destruct (Nat.ltb_spec MAX_NUM_WAVES (length (waves arg))); [lia|].
  reflexivity.
Qed.

Lemma setWaveParameters_uninitialized (s : State) (arg : IWaveParameters) :
  _isInitialized (this s) = false ->
  setWaveParameters arg s
  = (Throws (NotInitializedError "setWaveParameters"%string), s).
Proof. intros Hinit. open_state s. reflexivity. Qed.

Lemma setWaveParameters_wrong_mode (s : State) (arg : IWaveParameters) :
  _isInitialized (this s) = true ->
  _mode (this s) = receiver ->
  setWaveParameters arg s = (Throws (WrongRoleError receiver), s).
Proof. intros Hinit Hmode. open_state s. reflexivity. Qed.

(** ** The entries of a padded array *)

Lemma padded_prefix (ws : list IWave) (n : nat) :
  firstn (length ws) (ws ++ repeat createEmptyWave n) = ws.
Proof.
  rewrite firstn_app, firstn_all, Nat.sub_diag. cbn. apply app_nil_r.
Qed.

Lemma padded_suffix (ws : list IWave) (n i : nat) :
  length ws <= i < length ws + n ->
  nth_error (ws ++ repeat createEmptyWave n) i = Some createEmptyWave.
Proof.
  intros [Hlo Hhi].
  rewrite nth_error_app2 by exact Hlo.
  apply nth_error_repeat. lia.
Qed.

(** ** Claims on the methods *)

(** C1: on an initialized controller, [setWaveParameters] with at most
    [MAX_NUM_WAVES] waves returns and leaves in [waveParameters] exactly
    [MAX_NUM_WAVES] waves: the waves given, in their order, then empty waves;
    a period that is not supplied takes its default (and one that is
    supplied is kept). *)
Theorem setWaveParameters_pads_to_capacity (s : State) (arg : IWaveParameters) :
  _isInitialized (this s) = true ->
  _mode (this s) = controller ->
  length (waves arg) <= MAX_NUM_WAVES ->
  exists s' : State,
    setWaveParameters arg s = (Returns tt, s') /\
    length (waves (waveParameters (this s'))) = MAX_NUM_WAVES /\
    firstn (length (waves arg)) (waves (waveParameters (this s'))) = waves arg /\
    (forall i : nat,
       length (waves arg) <= i < MAX_NUM_WAVES ->
       nth_error (waves (waveParameters (this s'))) i = Some createEmptyWave) /\
    (timePeriod arg = None ->
     timePeriod (waveParameters (this s')) = Some DEFAULT_TIME_PERIOD) /\
    (distancePeriod arg = None ->
     distancePeriod (waveParameters (this s')) = Some DEFAULT_DISTANCE_PERIOD) /\
    (forall t : number,
       timePeriod arg = Some t ->
       timePeriod (waveParameters (this s')) = Some t) /\
    (forall d : number,
       distancePeriod arg = Some d ->
       distancePeriod (waveParameters (this s')) = Some d).
Proof.
  intros Hinit Hmode Hlen.
  eexists. split; [apply setWaveParameters_accepts; assumption|].
  cbn [this waveParameters with_waveParameters _waveParameters
       waves timePeriod distancePeriod].
  rewrite fill_from_length.
  repeat split.
  - rewrite length_app, repeat_length. lia.
  - apply padded_prefix.
  - intros i Hi. apply padded_suffix. lia.
  - intros ->. reflexivity.
  - intros ->. reflexivity.
  - intros t ->. reflexivity.
  - intros d ->. reflexivity.
Qed.

(** C2: on an initialized controller, [setWaveParameters] with more than
    [MAX_NUM_WAVES] waves throws the too-many-waves error and leaves the
    whole state as it was: every field of the instance, and the trace, so
    that nothing has gone to the bridge. *)
Theorem setWaveParameters_rejects_excess (s : State) (arg : IWaveParameters) :
  _isInitialized (this s) = true ->
  _mode (this s) = controller ->
  MAX_NUM_WAVES < length (waves arg) ->
  setWaveParameters arg s = (Throws TooManyWavesError, s).
Proof.
  intros Hinit Hmode Hlen. open_state s. run_m.
  destruct (Nat.ltb_spec MAX_NUM_WAVES (length (waves arg))); [|lia].
  reflexivity.
Qed.

(** C4, as amended: on a receiver, [setWaveParameters] always throws and
    changes nothing; it throws the wrong-role error when the instance is
    initialized, and the not-initialized error when it is not, the
    lifecycle check coming first. *)
Theorem setWaveParameters_on_receiver (s : State) (arg : IWaveParameters) :
  _mode (this s) = receiver ->
  setWaveParameters arg s
  = (Throws (if _isInitialized (this s)
             then WrongRoleError receiver
             else NotInitializedError "setWaveParameters"%string),
     s).
Proof.
  intros Hmode.
  destruct (_isInitialized (this s)) eqn:Hinit.
  - now apply setWaveParameters_wrong_mode.
  - now apply setWaveParameters_uninitialized.
Qed.

(** C8: in every state, initialized or not, [setPowerState] and
    [setBrightness] return, pass their argument to the bridge, and leave
    the instance as it was: the getters [powerState] and [brightness] give
    what they gave before. *)
Theorem setPowerState_setBrightness_forward (s : State) :
  (forall b : bool,
     setPowerState b s
     = (Returns tt,
        {| this := this s; env := log (Call (SetPowerState b)) (env s) |})) /\
  (forall n : number,
     setBrightness n s
     = (Returns tt,
        {| this := this s; env := log (Call (SetBrightness n)) (env s) |})) /\
  (forall b : bool,
     powerState (this (snd (setPowerState b s))) = powerState (this s) /\
     brightness (this (snd (setPowerState b s))) = brightness (this s)) /\
  (forall n : number,
     powerState (this (snd (setBrightness n s))) = powerState (this s) /\
     brightness (this (snd (setBrightness n s))) = brightness (this s)).
Proof.
  repeat split; intros; open_state s; reflexivity.
Qed.

(** ** The closures, one call at a time *)

Lemma onWaveParameterUpdate_result (s : State) (v : IWaveParameters) :
  onWaveParameterUpdate v s
  = (Returns tt,
     {| this := with_waveParameters v (this s);
        env := log (Emit (waveParametersUpdated v)
                         (with_waveParameters v (this s)))
                   (env s) |}).
Proof. open_state s. reflexivity. Qed.

Lemma onPowerStateUpdate_result (s : State) (v : bool) :
  onPowerStateUpdate v s
  = (Returns tt,
     {| this := with_powerState v (this s);
        env := log (Emit (powerStateUpdated v) (with_powerState v (this s)))
                   (env s) |}).
Proof. open_state s. reflexivity. Qed.

Lemma onBrightnessUpdate_result (s : State) (v : number) :
  onBrightnessUpdate v s
  = (Returns tt,
     {| this := with_brightness v (this s);
        env := log (Emit (brightnessUpdated v) (with_brightness v (this s)))
                   (env s) |}).
Proof. open_state s. reflexivity. Qed.

Lemma onInit_result (s : State) :
  onInit s
  = (Returns tt,
     {| this := with_isInitialized true (this s);
        env := log (Emit initialized (with_isInitialized true (this s)))
                 (log (Call (SetWaveParameters (_waveParameters (this s))))
                      (env s)) |}).
Proof. open_state s. reflexivity. Qed.

(** ** The constructor *)

Lemma new_RVL_result (o : IRVLOptions.t) (e : Env) :
  created e = false ->
  new_RVL o e
  = (Returns
       {| _isInitialized := false;
          _waveParameters := createEmptyWaveParameters;
          _mode := or_default receiver (IRVLOptions.mode o);
          _brightness := 0%float;
          _powerState := false |},
     {| created := true;
        bridge := all_listeners;
        trace :=
          trace e ++
          [Call ListenForWaveParameterUpdates;
           Call ListenForPowerStateUpdates;
           Call ListenForBrightnessUpdates;
           Call (Init (IRVLOptions.networkInterface o)
                      (or_default 4978%float (IRVLOptions.port o))
                      (or_default receiver (IRVLOptions.mode o))
                      (IRVLOptions.channel o)
                      (or_default log_info (IRVLOptions.logLevel o))
                      (or_default false (IRVLOptions.enableClockSync o)))]
     |}).
Proof.
  intros Hc. destruct e as [c b t]. cbn in Hc. subst c.
  unfold new_RVL. run_m. unfold log. cbn.
  repeat rewrite <- app_assoc. reflexivity.
Qed.

Lemma new_RVL_guard (o : IRVLOptions.t) (e : Env) :
  created e = true ->
  new_RVL o e = (Throws AlreadyCreatedError, e).
Proof.
  intros Hc. destruct e as [c b t]. cbn in Hc. subst c. reflexivity.
Qed.

Lemma construct_inv (o : IRVLOptions.t) (e : Env) (s0 : State) :
  construct o e = Returns s0 ->
  created e = false /\
  new_RVL o e = (Returns (this s0), env s0).
Proof.
  unfold construct. intros Hs0.
  destruct (created e) eqn:Hc.
  - rewrite new_RVL_guard in Hs0 by exact Hc. discriminate.
  - split; [reflexivity|].
    destruct (new_RVL o e) as [[obj|err] e']; [|discriminate].
    injection Hs0 as <-. reflexivity.
Qed.

Lemma construct_facts (o : IRVLOptions.t) (e : Env) (s0 : State) :
  construct o e = Returns s0 ->
  _isInitialized (this s0) = false /\
  _waveParameters (this s0) = createEmptyWaveParameters /\
  created (env s0) = true /\
  bridge (env s0) = all_listeners.
Proof.
  intros Hs0. apply construct_inv in Hs0 as [Hc Hnew].
  rewrite new_RVL_result in Hnew by exact Hc.
  injection Hnew as Hthis Henv. rewrite <- Hthis, <- Henv. cbn. auto.
Qed.

(** ** One input *)

Ltac break_if :=
  repeat match goal with
         | |- context [if ?c then _ else _] =>
             destruct c eqn:?; cbn -[Nat.ltb fill]
         end.

Ltac by_cases_on s i :=
  destruct i as [| | ? | ? | ? | [? | ? | ? |]];
  open_state s; unfold step, perform, deliver; run_m; break_if.

Lemma step_keeps_module (s : State) (i : Input) :
  created (env (step s i)) = created (env s) /\
  bridge (env (step s i)) = bridge (env s) /\
  _mode (this (step s i)) = _mode (this s).
Proof. by_cases_on s i; auto. Qed.

Lemma step_waves_length (s : State) (i : Input) :
  delivers_full_length i ->
  length (waves (_waveParameters (this s))) = MAX_NUM_WAVES ->
  length (waves (_waveParameters (this (step s i)))) = MAX_NUM_WAVES.
Proof.
  intros Hi Hs.
  destruct i as [| | arg | ? | ? | [p | ? | ? |]];
    open_state s; unfold step, perform, deliver; run_m; break_if; auto.
  apply fill_length.
  match goal with
  | Hlt : (_ <? _) = false |- _ => apply Nat.ltb_ge in Hlt; exact Hlt
  end.
Qed.

Lemma step_initialized_emissions (s : State) (i : Input) :
  readyCallback (bridge (env s)) = true ->
  initialized_emissions (trace (env (step s i)))
  = initialized_emissions (trace (env s)) + (if is_Ready i then 1 else 0).
Proof.
  intros Hr. unfold initialized_emissions.
  by_cases_on s i;
    repeat rewrite filter_app; repeat rewrite length_app; cbn;
    try discriminate; lia.
Qed.

Lemma step_isInitialized (s : State) (i : Input) :
  is_Ready i = false ->
  _isInitialized (this (step s i)) = _isInitialized (this s).
Proof. intros Hi. by_cases_on s i; auto; discriminate. Qed.

Lemma step_keeps_waveParameters (s : State) (i : Input) :
  writes_waveParameters i = false ->
  _waveParameters (this (step s i)) = _waveParameters (this s).
Proof. intros Hi. by_cases_on s i; auto; discriminate. Qed.

Lemma step_keeps_powerState (s : State) (i : Input) :
  writes_powerState i = false ->
  _powerState (this (step s i)) = _powerState (this s).
Proof. intros Hi. by_cases_on s i; auto; discriminate. Qed.

Lemma step_keeps_brightness (s : State) (i : Input) :
  writes_brightness i = false ->
  _brightness (this (step s i)) = _brightness (this s).
Proof. intros Hi. by_cases_on s i; auto; discriminate. Qed.

(** ** Runs *)

Lemma run_cons (s : State) (i : Input) (inputs : list Input) :
  run s (i :: inputs) = run (step s i) inputs.
Proof. reflexivity. Qed.

Lemma run_keeps_module (inputs : list Input) (s : State) :
  created (env (run s inputs)) = created (env s) /\
  bridge (env (run s inputs)) = bridge (env s) /\
  _mode (this (run s inputs)) = _mode (this s).
Proof.
  revert s. induction inputs as [|i inputs IH]; intros s; [cbn; auto|].
  rewrite run_cons.
  destruct (IH (step s i)) as (Hc & Hb & Hm).
  destruct (step_keeps_module s i) as (Hc' & Hb' & Hm').
  rewrite Hc, Hb, Hm. auto.
Qed.

Lemma run_waves_length (inputs : list Input) (s : State) :
  Forall delivers_full_length inputs ->
  length (waves (_waveParameters (this s))) = MAX_NUM_WAVES ->
  length (waves (_waveParameters (this (run s inputs)))) = MAX_NUM_WAVES.
Proof.
  intros Hall. revert s.
  induction Hall as [|i inputs Hi _ IH]; intros s Hs; [exact Hs|].
  rewrite run_cons. apply IH. now apply step_waves_length.
Qed.

Lemma ready_signals_cons (i : Input) (inputs : list Input) :
  ready_signals (i :: inputs)
  = (if is_Ready i then 1 else 0) + ready_signals inputs.
Proof. unfold ready_signals. cbn. now destruct (is_Ready i). Qed.

Lemma run_initialized_emissions (inputs : list Input) (s : State) :
  readyCallback (bridge (env s)) = true ->
  initialized_emissions (trace (env (run s inputs)))
  = initialized_emissions (trace (env s)) + ready_signals inputs.
Proof.
  revert s. induction inputs as [|i inputs IH]; intros s Hr.
  - cbn. unfold ready_signals. cbn. lia.
  - rewrite run_cons, ready_signals_cons, IH.
    + rewrite step_initialized_emissions by exact Hr. lia.
    + destruct (step_keeps_module s i) as (_ & -> & _). exact Hr.
Qed.

Lemma run_isInitialized (inputs : list Input) (s : State) :
  ready_signals inputs = 0 ->
  _isInitialized (this (run s inputs)) = _isInitialized (this s).
Proof.
  revert s. induction inputs as [|i inputs IH]; intros s Hn; [reflexivity|].
  rewrite ready_signals_cons in Hn.
  rewrite run_cons, IH by lia.
  apply step_isInitialized. destruct (is_Ready i); [lia | reflexivity].
Qed.

Lemma run_keeps_waveParameters (inputs : list Input) (s : State) :
  Forall (fun i => writes_waveParameters i = false) inputs ->
  _waveParameters (this (run s inputs)) = _waveParameters (this s).
Proof.
  intros Hall. revert s.
  induction Hall as [|i inputs Hi _ IH]; intros s; [reflexivity|].
  rewrite run_cons, IH. now apply step_keeps_waveParameters.
Qed.

Lemma run_keeps_powerState (inputs : list Input) (s : State) :
  Forall (fun i => writes_powerState i = false) inputs ->
  _powerState (this (run s inputs)) = _powerState (this s).
Proof.
  intros Hall. revert s.
  induction Hall as [|i inputs Hi _ IH]; intros s; [reflexivity|].
  rewrite run_cons, IH. now apply step_keeps_powerState.
Qed.

Lemma run_keeps_brightness (inputs : list Input) (s : State) :
  Forall (fun i => writes_brightness i = false) inputs ->
  _brightness (this (run s inputs)) = _brightness (this s).
Proof.
  intros Hall. revert s.
  induction Hall as [|i inputs Hi _ IH]; intros s; [reflexivity|].
  rewrite run_cons, IH. now apply step_keeps_brightness.
Qed.

(** ** Deliveries to a filled slot *)

Lemma deliver_to_listeners (s : State) :
  bridge (env s) = all_listeners ->
  (forall v, deliver (WaveParametersReceived v) s = onWaveParameterUpdate v s) /\
  (forall v, deliver (PowerStateReceived v) s = onPowerStateUpdate v s) /\
  (forall v, deliver (BrightnessReceived v) s = onBrightnessUpdate v s) /\
  deliver Ready s = onInit s.
Proof.
  intros Hb. unfold deliver, bind, gets. rewrite Hb. cbn. auto.
Qed.

(** ** From the construction on *)

Lemma construct_trace (o : IRVLOptions.t) (e : Env) (s0 : State) :
  construct o e = Returns s0 ->
  trace (env s0)
  = trace e ++
    [Call ListenForWaveParameterUpdates;
     Call ListenForPowerStateUpdates;
     Call ListenForBrightnessUpdates;
     Call (Init (IRVLOptions.networkInterface o)
                (or_default 4978%float (IRVLOptions.port o))
                (or_default receiver (IRVLOptions.mode o))
                (IRVLOptions.channel o)
                (or_default log_info (IRVLOptions.logLevel o))
                (or_default false (IRVLOptions.enableClockSync o)))].
Proof.
  intros Hs0. apply construct_inv in Hs0 as [Hc Hnew].
  rewrite new_RVL_result in Hnew by exact Hc.
  injection Hnew as _ <-. reflexivity.
Qed.

Lemma emissions_since_construction
    (o : IRVLOptions.t) (e : Env) (s0 : State) (inputs : list Input) :
  construct o e = Returns s0 ->
  initialized_emissions (trace (env (run s0 inputs)))
  = initialized_emissions (trace e) + ready_signals inputs.
Proof.
  intros Hs0.
  destruct (construct_facts _ _ Hs0) as (_ & _ & _ & Hb).
  rewrite run_initialized_emissions by (rewrite Hb; reflexivity).
  f_equal. rewrite (construct_trace _ _ Hs0).
  unfold initialized_emissions.
  rewrite filter_app, length_app. cbn. lia.
Qed.

Lemma not_initialized_before_ready
    (o : IRVLOptions.t) (e : Env) (s0 : State) (inputs : list Input) :
  construct o e = Returns s0 ->
  ready_signals inputs = 0 ->
  _isInitialized (this (run s0 inputs)) = false.
Proof.
  intros Hs0 Hn. rewrite run_isInitialized by exact Hn.
  now destruct (construct_facts _ _ Hs0) as (-> & _).
Qed.

(** ** Claims on the process *)

(** C3: while the instance is not initialized, which is the case as long
    as no [initialized] event has been emitted since the construction,
    [start], [stop] and [setWaveParameters] each throw the not-initialized
    error (and change nothing). *)
Theorem methods_throw_before_initialized (s : State) :
  _isInitialized (this s) = false \/
  (exists (o : IRVLOptions.t) (e : Env) (s0 : State) (inputs : list Input),
     construct o e = Returns s0 /\
     s = run s0 inputs /\
     initialized_emissions (trace (env s)) = initialized_emissions (trace e)) ->
  start s = (Throws (NotInitializedError "start"%string), s) /\
  stop s = (Throws (NotInitializedError "stop"%string), s) /\
  forall arg : IWaveParameters,
    setWaveParameters arg s
    = (Throws (NotInitializedError "setWaveParameters"%string), s).
Proof.
  intros Hbefore.
  assert (Hinit : _isInitialized (this s) = false).
  { destruct Hbefore as [Hinit | (o & e & s0 & inputs & Hs0 & -> & Hcount)];
      [exact Hinit|].
    rewrite (emissions_since_construction _ _ inputs Hs0) in Hcount.
    apply not_initialized_before_ready with (o := o) (e := e);
      [exact Hs0 | lia]. }
  clear Hbefore. split; [|split].
  - open_state s. reflexivity.
  - open_state s. reflexivity.
  - intros arg. now apply setWaveParameters_uninitialized.
Qed.


Lemma run_app (s : State) (inputs1 inputs2 : list Input) :
  run s (inputs1 ++ inputs2) = run (run s inputs1) inputs2.
Proof. apply fold_left_app. Qed.

Lemma setWaveParameters_returns_full (s : State) (arg : IWaveParameters) :
  fst (setWaveParameters arg s) = Returns tt ->
  length (waves (_waveParameters (this (snd (setWaveParameters arg s)))))
  = MAX_NUM_WAVES.
Proof.
  open_state s. run_m. break_if; intros Hr; try discriminate.
  apply fill_length.
  match goal with
  | Hlt : (_ <? _) = false |- _ => apply Nat.ltb_ge in Hlt; exact Hlt
  end.
Qed.

Lemma delivery_is_stored (s : State) (p : IWaveParameters) :
  bridge (env s) = all_listeners ->
  _waveParameters (this (step s (signal (WaveParametersReceived p)))) = p.
Proof.
  intros Hb. unfold step, perform.
  destruct (deliver_to_listeners _ Hb) as (-> & _).
  now rewrite onWaveParameterUpdate_result.
Qed.

(** C5: [waveParameters.waves] has exactly [MAX_NUM_WAVES] entries in
    every state the process reaches: after the construction; after every
    run in which the bridge keeps its contract, each delivery of wave
    parameters carrying [MAX_NUM_WAVES] waves; and, whatever came before,
    from any successful [setWaveParameters] on and from any such delivery
    on, as long as the bridge keeps its contract afterwards. *)
Theorem waves_length_invariant
    (o : IRVLOptions.t) (e : Env) (s0 : State) :
  construct o e = Returns s0 ->
  length (waves (waveParameters (this s0))) = MAX_NUM_WAVES /\
  (forall inputs : list Input,
     Forall delivers_full_length inputs ->
     length (waves (waveParameters (this (run s0 inputs)))) = MAX_NUM_WAVES) /\
  (forall (before after : list Input) (arg : IWaveParameters),
     fst (setWaveParameters arg (run s0 before)) = Returns tt ->
     Forall delivers_full_length after ->
     length (waves (waveParameters
       (this (run s0 (before ++ do_setWaveParameters arg :: after)))))
     = MAX_NUM_WAVES) /\
  (forall (before after : list Input) (p : IWaveParameters),
     length (waves p) = MAX_NUM_WAVES ->
     Forall delivers_full_length after ->
     length (waves (waveParameters
       (this (run s0 (before ++ signal (WaveParametersReceived p) :: after)))))
     = MAX_NUM_WAVES).
Proof.
  intros Hs0. unfold waveParameters.
  destruct (construct_facts _ _ Hs0) as (_ & Hwp & _ & Hb).
  assert (H0 : length (waves (_waveParameters (this s0))) = MAX_NUM_WAVES).
  { rewrite Hwp. cbn. apply repeat_length. }
  split; [exact H0|]. split; [|split].
  - intros inputs Hall. now apply run_waves_length.
  - intros before after arg Hret Hall.
    rewrite run_app, run_cons.
    apply run_waves_length; [exact Hall|].
    now apply setWaveParameters_returns_full.
  - intros before after p Hp Hall.
    rewrite run_app, run_cons.
    apply run_waves_length; [exact Hall|].
    rewrite delivery_is_stored; [exact Hp|].
    destruct (run_keeps_module before s0) as (_ & -> & _). exact Hb.
Qed.

(** C6, as amended: [initialized] is emitted once for each ready signal of
    the bridge, so exactly once when the bridge signals once.  On a ready
    signal the instance pushes its current wave parameters to the bridge
    (the parameters of [createEmptyWaveParameters], when nothing came
    before), then sets [_isInitialized], then emits [initialized]; no guard
    tells a second signal from the first. *)
Theorem initialized_emitted_per_ready_signal
    (o : IRVLOptions.t) (e : Env) (s0 : State) (inputs : list Input) :
  construct o e = Returns s0 ->
  waveParameters (this s0) = createEmptyWaveParameters /\
  (let s := run s0 inputs in
   step s (signal Ready)
   = {| this := with_isInitialized true (this s);
        env := log (Emit initialized (with_isInitialized true (this s)))
                 (log (Call (SetWaveParameters (waveParameters (this s))))
                      (env s)) |}) /\
  initialized_emissions (trace (env (run s0 inputs)))
  = initialized_emissions (trace e) + ready_signals inputs.
Proof.
  intros Hs0.
  destruct (construct_facts _ _ Hs0) as (_ & Hwp & _ & Hb).
  split; [|split].
  - exact Hwp.
  - cbv zeta. unfold step, perform.
    destruct (run_keeps_module inputs s0) as (_ & Hb' & _).
    rewrite Hb in Hb'.
    destruct (deliver_to_listeners _ Hb') as (_ & _ & _ & ->).
    rewrite onInit_result. reflexivity.
  - now apply emissions_since_construction with (o := o).
Qed.

(** C7: a listener called with [v] returns; it has assigned [v] to its
    field and left the others, and has emitted its event with [v] as the
    payload, to listeners that find [v] in the field.  The getter gives [v]
    from then on, until an input that writes the field. *)
Theorem listeners_store_and_emit (s : State) :
  (forall v : IWaveParameters,
     onWaveParameterUpdate v s
     = (Returns tt,
        {| this := with_waveParameters v (this s);
           env := log (Emit (waveParametersUpdated v)
                            (with_waveParameters v (this s)))
                      (env s) |}) /\
     forall inputs : list Input,
       Forall (fun i => writes_waveParameters i = false) inputs ->
       waveParameters (this (run (snd (onWaveParameterUpdate v s)) inputs))
       = v) /\
  (forall v : bool,
     onPowerStateUpdate v s
     = (Returns tt,
        {| this := with_powerState v (this s);
           env := log (Emit (powerStateUpdated v)
                            (with_powerState v (this s)))
                      (env s) |}) /\
     forall inputs : list Input,
       Forall (fun i => writes_powerState i = false) inputs ->
       powerState (this (run (snd (onPowerStateUpdate v s)) inputs)) = v) /\
  (forall v : number,
     onBrightnessUpdate v s
     = (Returns tt,
        {| this := with_brightness v (this s);
           env := log (Emit (brightnessUpdated v)
                            (with_brightness v (this s)))
                      (env s) |}) /\
     forall inputs : list Input,
       Forall (fun i => writes_brightness i = false) inputs ->
       brightness (this (run (snd (onBrightnessUpdate v s)) inputs)) = v).
Proof.
  split; [|split]; intros v; (split; [|intros inputs Hall]).
  - apply onWaveParameterUpdate_result.
  - unfold waveParameters.
    rewrite run_keeps_waveParameters by exact Hall.
    now rewrite onWaveParameterUpdate_result.
  - apply onPowerStateUpdate_result.
  - unfold powerState.
    rewrite run_keeps_powerState by exact Hall.
    now rewrite onPowerStateUpdate_result.
  - apply onBrightnessUpdate_result.
  - unfold brightness.
    rewrite run_keeps_brightness by exact Hall.
    now rewrite onBrightnessUpdate_result.
Qed.

(** C9: once an instance has been constructed, and whatever has happened
    since, [new RVL(...)] throws the already-created error and leaves the
    process as it was: the fields of the first instance, the listeners of
    the bridge and the trace. *)
Theorem second_construction_throws
    (o1 o2 : IRVLOptions.t) (e : Env) (s0 : State) (inputs : list Input) :
  construct o1 e = Returns s0 ->
  lift (new_RVL o2) (run s0 inputs)
  = (Throws AlreadyCreatedError, run s0 inputs) /\
  construct o2 (env (run s0 inputs)) = Throws AlreadyCreatedError.
Proof.
  intros Hs0.
  destruct (construct_facts _ _ Hs0) as (_ & _ & Hc & _).
  destruct (run_keeps_module inputs s0) as (Hc' & _).
  rewrite Hc in Hc'.
  split.
  - unfold lift. rewrite new_RVL_guard by exact Hc'.
    now destruct (run s0 inputs).
  - unfold construct. now rewrite new_RVL_guard by exact Hc'.
Qed.

(** C10: the constructor registers the three listeners, in the order of
    the source, before it calls [init]; and in every state that a run
    without a ready signal reaches, where the instance is not initialized,
    a delivery of wave parameters, of a power state or of a brightness
    assigns the field and emits the event. *)
Theorem listeners_registered_before_init
    (o : IRVLOptions.t) (e : Env) (s0 : State) :
  construct o e = Returns s0 ->
  trace (env s0)
  = trace e ++
    [Call ListenForWaveParameterUpdates;
     Call ListenForPowerStateUpdates;
     Call ListenForBrightnessUpdates;
     Call (Init (IRVLOptions.networkInterface o)
                (or_default 4978%float (IRVLOptions.port o))
                (or_default receiver (IRVLOptions.mode o))
                (IRVLOptions.channel o)
                (or_default log_info (IRVLOptions.logLevel o))
                (or_default false (IRVLOptions.enableClockSync o)))] /\
  forall inputs : list Input,
    ready_signals inputs = 0 ->
    let s := run s0 inputs in
    _isInitialized (this s) = false /\
    (forall v : IWaveParameters,
       deliver (WaveParametersReceived v) s
       = (Returns tt,
          {| this := with_waveParameters v (this s);
             env := log (Emit (waveParametersUpdated v)
                              (with_waveParameters v (this s)))
                        (env s) |})) /\
    (forall v : bool,
       deliver (PowerStateReceived v) s
       = (Returns tt,
          {| this := with_powerState v (this s);
             env := log (Emit (powerStateUpdated v)
                              (with_powerState v (this s)))
                        (env s) |})) /\
    (forall v : number,
       deliver (BrightnessReceived v) s
       = (Returns tt,
          {| this := with_brightness v (this s);
             env := log (Emit (brightnessUpdated v)
                              (with_brightness v (this s)))
                        (env s) |})).
Proof.
  intros Hs0.
  destruct (construct_facts _ _ Hs0) as (_ & _ & _ & Hb).
  split.
  - now apply construct_trace.
  - intros inputs Hn. cbv zeta.
    destruct (run_keeps_module inputs s0) as (_ & Hb' & _).
    rewrite Hb in Hb'.
    destruct (deliver_to_listeners _ Hb') as (Hw & Hp & Hbr & _).
    split; [|split; [|split]].
    + now apply not_initialized_before_ready with (o := o) (e := e).
    + intros v. rewrite Hw. apply onWaveParameterUpdate_result.
    + intros v. rewrite Hp. apply onPowerStateUpdate_result.
    + intros v. rewrite Hbr. apply onBrightnessUpdate_result.
Qed.

(** * Further properties of the class *)

(** ** Outcomes of the methods *)

(** X1: [setWaveParameters] returns exactly when the instance is
    initialized, its mode is ['controller'], and the argument has at most
    [MAX_NUM_WAVES] waves. *)
Theorem setWaveParameters_returns_iff (s : State) (arg : IWaveParameters) :
  fst (setWaveParameters arg s) = Returns tt <->
  _isInitialized (this s) = true /\
  _mode (this s) = controller /\
  length (waves arg) <= MAX_NUM_WAVES.
Proof.
  split.
  - open_state s. run_m. break_if; intros Hr; try discriminate.
    repeat match goal with
           | Hb : negb ?b = false |- _ => apply negb_false_iff in Hb
           end.
    split; [assumption|]. split.
    + match goal with
      | Hm : Mode_eqb ?m controller = true |- _ => now destruct m
      end.
    + match goal with
      | Hlt : (_ <? _) = false |- _ => now apply Nat.ltb_ge in Hlt
      end.
  - intros (Hinit & Hmode & Hlen).
    now rewrite (setWaveParameters_accepts s arg Hinit Hmode Hlen).
Qed.

(** X2: a method call that throws has changed nothing, neither in the
    instance nor in the module nor at the bridge: each method tests before
    it assigns or calls. *)
Theorem throwing_method_changes_nothing (s : State) (i : Input) (e : Error) :
  is_signal i = false ->
  fst (perform i s) = Throws e ->
  snd (perform i s) = s.
Proof.
  intros Hi.
  destruct i as [| | ? | ? | ? | ?]; try discriminate;
    open_state s; unfold perform; run_m; break_if;
    intros Hr; try discriminate; auto.
Qed.

(** X3: on an initialized instance, of either mode, [start] and [stop]
    return; each makes its one call into the bridge and leaves the instance
    as it was. *)
Theorem start_stop_forward_when_initialized (s : State) :
  _isInitialized (this s) = true ->
  start s
  = (Returns tt, {| this := this s; env := log (Call Start) (env s) |}) /\
  stop s
  = (Returns tt, {| this := this s; env := log (Call Stop) (env s) |}).
Proof.
  intros Hinit. split; open_state s; reflexivity.
Qed.

(** X4: what a method can throw.  [start] and [stop] throw nothing but
    their own not-initialized error, [setWaveParameters] nothing but its
    not-initialized, wrong-role and too-many-waves errors, and
    [setPowerState] and [setBrightness] nothing at all. *)
Theorem errors_of_each_method (s : State) :
  (forall e : Error,
     fst (start s) = Throws e -> e = NotInitializedError "start"%string) /\
  (forall e : Error,
     fst (stop s) = Throws e -> e = NotInitializedError "stop"%string) /\
  (forall (arg : IWaveParameters) (e : Error),
     fst (setWaveParameters arg s) = Throws e ->
     e = NotInitializedError "setWaveParameters"%string \/
     e = WrongRoleError receiver \/
     e = TooManyWavesError) /\
  (forall (b : bool) (e : Error), fst (setPowerState b s) <> Throws e) /\
  (forall (n : number) (e : Error), fst (setBrightness n s) <> Throws e).
Proof.
  split; [|split; [|split; [|split]]].
  - intros e. open_state s. run_m. break_if; intros Hr; try discriminate.
    now injection Hr as <-.
  - intros e. open_state s. run_m. break_if; intros Hr; try discriminate.
    now injection Hr as <-.
  - intros arg e. open_state s. run_m. break_if; intros Hr;
      try discriminate; injection Hr as <-; auto.
    match goal with
    | Hm : negb (Mode_eqb ?m controller) = true |- _ =>
        destruct m; [discriminate | auto]
    end.
  - intros b e. open_state s. run_m. discriminate.
  - intros n e. open_state s. run_m. discriminate.
Qed.

(** X5: the errors of the file are plain [Error]s, told apart by their
    text only; the texts of two different [throw] statements differ,
    whatever [MAX_NUM_WAVES] is. *)
Theorem messages_tell_errors_apart (e1 e2 : Error) :
  In e1 thrown -> In e2 thrown ->
  e1 <> e2 ->
  message e1 <> message e2.
Proof.
  unfold thrown. cbn [In].
  intros H1 H2 Hne Heq. apply Hne. clear Hne.
  repeat match goal with
         | Hor : _ \/ _ |- _ => destruct Hor as [<- | Hor]
         | Hf : False |- _ => destruct Hf
         end;
    try reflexivity; exfalso;
    unfold message, dquote, Mode_name in Heq; cbn in Heq; discriminate.
Qed.

(** ** The lifecycle *)

Lemma step_isInitialized_or_ready (s : State) (i : Input) :
  readyCallback (bridge (env s)) = true ->
  _isInitialized (this (step s i)) = _isInitialized (this s) || is_Ready i.
Proof.
  intros Hr. by_cases_on s i;
    rewrite ?orb_false_r, ?orb_true_r; auto; discriminate.
Qed.

Lemma run_isInitialized_or_ready (inputs : list Input) (s : State) :
  readyCallback (bridge (env s)) = true ->
  _isInitialized (this (run s inputs))
  = _isInitialized (this s) || (0 <? ready_signals inputs).
Proof.
  revert s. induction inputs as [|i inputs IH]; intros s Hr.
  - cbn. now rewrite orb_false_r.
  - rewrite run_cons, ready_signals_cons, IH.
    + rewrite step_isInitialized_or_ready by exact Hr.
      destruct (is_Ready i), (_isInitialized (this s)),
        (ready_signals inputs); reflexivity.
    + destruct (step_keeps_module s i) as (_ & -> & _). exact Hr.
Qed.

Lemma step_stays_initialized (s : State) (i : Input) :
  _isInitialized (this s) = true ->
  _isInitialized (this (step s i)) = true.
Proof. intros Hinit. by_cases_on s i; auto. Qed.

(** X6: from the construction on, the instance is initialized exactly when
    the bridge has signalled at least once that it is ready; nothing else
    sets [_isInitialized]. *)
Theorem initialized_iff_ready_signalled
    (o : IRVLOptions.t) (e : Env) (s0 : State) (inputs : list Input) :
  construct o e = Returns s0 ->
  _isInitialized (this (run s0 inputs)) = (0 <? ready_signals inputs).
Proof.
  intros Hs0.
  destruct (construct_facts _ _ Hs0) as (Hinit & _ & _ & Hb).
  rewrite run_isInitialized_or_ready by (rewrite Hb; reflexivity).
  now rewrite Hinit.
Qed.

(** X7: the lifecycle goes one way: no method call and no signal takes an
    initialized instance back. *)
Theorem initialized_for_good (s : State) (inputs : list Input) :
  _isInitialized (this s) = true ->
  _isInitialized (this (run s inputs)) = true.
Proof.
  revert s. induction inputs as [|i inputs IH]; intros s Hinit;
    [exact Hinit|].
  rewrite run_cons. apply IH. now apply step_stays_initialized.
Qed.

(** X8: the mode is the one given to the constructor, ['receiver'] when
    none is given, and stays so through every run. *)
Theorem mode_is_fixed_at_construction
    (o : IRVLOptions.t) (e : Env) (s0 : State) (inputs : list Input) :
  construct o e = Returns s0 ->
  mode (this (run s0 inputs)) = or_default receiver (IRVLOptions.mode o).
Proof.
  intros Hs0. unfold mode.
  destruct (run_keeps_module inputs s0) as (_ & _ & ->).
  apply construct_inv in Hs0 as [Hc Hnew].
  rewrite new_RVL_result in Hnew by exact Hc.
  injection Hnew as <- _. reflexivity.
Qed.

(** ** Events and pushes *)

Ltac by_cases_listening s i Hb :=
  destruct i as [| | ? | ? | ? | [? | ? | ? |]];
  open_state s; unfold all_listeners in Hb; injection Hb as -> -> -> ->;
  unfold step, perform, deliver; run_m; break_if.

Lemma step_emissions (s : State) (i : Input) :
  bridge (env s) = all_listeners ->
  emissions (trace (env (step s i)))
  = emissions (trace (env s)) + (if is_signal i then 1 else 0).
Proof.
  intros Hb. unfold emissions.
  by_cases_listening s i Hb;
    repeat rewrite filter_app; repeat rewrite length_app; cbn; lia.
Qed.

Lemma signals_cons (i : Input) (inputs : list Input) :
  signals (i :: inputs) = (if is_signal i then 1 else 0) + signals inputs.
Proof. unfold signals. cbn. now destruct (is_signal i). Qed.

(** X9: events come from the bridge only.  From the construction on, every
    signal of the bridge makes the instance emit exactly one event, and no
    method call makes it emit any: [setWaveParameters] gives no event for
    the caller's own write. *)
Theorem one_event_per_signal
    (o : IRVLOptions.t) (e : Env) (s0 : State) (inputs : list Input) :
  construct o e = Returns s0 ->
  emissions (trace (env (run s0 inputs)))
  = emissions (trace e) + signals inputs.
Proof.
  intros Hs0.
  destruct (construct_facts _ _ Hs0) as (_ & _ & _ & Hb).
  assert (Hstart : emissions (trace (env s0)) = emissions (trace e)).
  { rewrite (construct_trace _ _ Hs0). unfold emissions.
    rewrite filter_app, length_app. cbn. lia. }
  rewrite <- Hstart. clear Hstart Hs0.
  revert s0 Hb. induction inputs as [|i inputs IH]; intros s Hb.
  - cbn. unfold signals. cbn. lia.
  - rewrite run_cons, signals_cons, IH.
    + rewrite step_emissions by exact Hb. lia.
    + destruct (step_keeps_module s i) as (_ & -> & _). exact Hb.
Qed.

Lemma step_wave_pushes_of_receiver (s : State) (i : Input) :
  _mode (this s) = receiver ->
  readyCallback (bridge (env s)) = true ->
  wave_pushes (trace (env (step s i)))
  = wave_pushes (trace (env s)) + (if is_Ready i then 1 else 0).
Proof.
  intros Hm Hr. unfold wave_pushes.
  by_cases_on s i;
    repeat rewrite filter_app; repeat rewrite length_app; cbn;
    try discriminate; lia.
Qed.

Lemma step_waveParameters_of_receiver (s : State) (i : Input) :
  _mode (this s) = receiver ->
  delivers_waveParameters i = false ->
  _waveParameters (this (step s i)) = _waveParameters (this s).
Proof. intros Hm Hi. by_cases_on s i; auto; discriminate. Qed.

(** X10: a receiver never originates wave parameters.  From its
    construction on, it pushes wave parameters to the bridge once for each
    ready signal and at no other time, and its own wave parameters change
    only when the bridge delivers some. *)
Theorem receiver_never_originates
    (o : IRVLOptions.t) (e : Env) (s0 : State) (inputs : list Input) :
  construct o e = Returns s0 ->
  mode (this s0) = receiver ->
  wave_pushes (trace (env (run s0 inputs)))
  = wave_pushes (trace e) + ready_signals inputs /\
  (Forall (fun i => delivers_waveParameters i = false) inputs ->
   waveParameters (this (run s0 inputs)) = waveParameters (this s0)).
Proof.
  intros Hs0 Hm. unfold mode, waveParameters in *.
  destruct (construct_facts _ _ Hs0) as (_ & _ & _ & Hb).
  assert (Hr : readyCallback (bridge (env s0)) = true)
    by (rewrite Hb; reflexivity).
  assert (Hstart : wave_pushes (trace (env s0)) = wave_pushes (trace e)).
  { rewrite (construct_trace _ _ Hs0). unfold wave_pushes.
    rewrite filter_app, length_app. cbn. lia. }
  rewrite <- Hstart. clear Hstart Hs0 Hb.
  split.
  - revert s0 Hm Hr. induction inputs as [|i inputs IH]; intros s Hm Hr.
    + cbn. unfold ready_signals. cbn. lia.
    + destruct (step_keeps_module s i) as (_ & Hb' & Hm').
      rewrite run_cons, ready_signals_cons, IH.
      * rewrite step_wave_pushes_of_receiver by assumption. lia.
      * now rewrite Hm'.
      * now rewrite Hb'.
  - intros Hall. revert s0 Hm Hr.
    induction Hall as [|i inputs Hi _ IH]; intros s Hm Hr; [reflexivity|].
    destruct (step_keeps_module s i) as (_ & Hb' & Hm').
    rewrite run_cons, IH.
    + now apply step_waveParameters_of_receiver.
    + now rewrite Hm'.
    + now rewrite Hb'.
Qed.

Lemma step_frozen (s : State) (i : Input) :
  _isInitialized (this s) = false ->
  is_signal i = false ->
  this (step s i) = this s.
Proof. intros Hinit Hi. by_cases_on s i; auto; discriminate. Qed.

(** X11: until the bridge speaks, nothing moves.  While the instance is
    not initialized, no sequence of method calls changes any of its fields. *)
Theorem frozen_until_the_bridge_speaks (s : State) (inputs : list Input) :
  _isInitialized (this s) = false ->
  signals inputs = 0 ->
  this (run s inputs) = this s.
Proof.
  revert s. induction inputs as [|i inputs IH]; intros s Hinit Hn;
    [reflexivity|].
  rewrite signals_cons in Hn.
  assert (Hi : is_signal i = false) by (destruct (is_signal i); [lia | reflexivity]).
  rewrite run_cons, IH.
  - now apply step_frozen.
  - now rewrite step_frozen.
  - rewrite Hi in Hn. exact Hn.
Qed.

(** ** What [setWaveParameters] stores and pushes *)

Lemma fill_full (ws : list IWave) :
  length ws = MAX_NUM_WAVES ->
  fill MAX_NUM_WAVES (length ws) ws = ws.
Proof.
  intros Hlen. rewrite fill_from_length, Hlen, Nat.sub_diag. cbn.
  apply app_nil_r.
Qed.

(** X12: setting the wave parameters that the instance holds after a
    successful [setWaveParameters] succeeds and leaves them as they are: the
    padding and the defaults change nothing the second time. *)
Theorem setWaveParameters_again_is_stable (s : State) (arg : IWaveParameters) :
  _isInitialized (this s) = true ->
  _mode (this s) = controller ->
  length (waves arg) <= MAX_NUM_WAVES ->
  let s1 := snd (setWaveParameters arg s) in
  fst (setWaveParameters (waveParameters (this s1)) s1) = Returns tt /\
  this (snd (setWaveParameters (waveParameters (this s1)) s1)) = this s1.
Proof.
  intros Hinit Hmode Hlen. cbv zeta.
  rewrite (setWaveParameters_accepts s arg Hinit Hmode Hlen).
  cbn [snd this waveParameters with_waveParameters _waveParameters].
  set (p := {| waves := fill MAX_NUM_WAVES (length (waves arg)) (waves arg);
               timePeriod := _; distancePeriod := _ |}).
  assert (Hfull : length (waves p) = MAX_NUM_WAVES)
    by (now apply fill_length).
  match goal with
  | |- fst (setWaveParameters p ?s1) = _ /\ _ =>
      assert (Hagain := setWaveParameters_accepts s1 p Hinit Hmode
                          (Nat.eq_le_incl _ _ Hfull))
  end.
  cbv zeta in Hagain. rewrite Hagain.
  split; [reflexivity|].
  cbn [snd this]. rewrite (fill_full _ Hfull).
  subst p. reflexivity.
Qed.

(** X13: the two ends of the range.  With no wave at all,
    [setWaveParameters] stores [MAX_NUM_WAVES] empty waves; with exactly
    [MAX_NUM_WAVES] waves it stores the waves given, with no padding. *)
Theorem setWaveParameters_at_the_bounds (s : State) (arg : IWaveParameters) :
  _isInitialized (this s) = true ->
  _mode (this s) = controller ->
  (waves arg = [] ->
   waves (waveParameters (this (snd (setWaveParameters arg s))))
   = repeat createEmptyWave MAX_NUM_WAVES) /\
  (length (waves arg) = MAX_NUM_WAVES ->
   waves (waveParameters (this (snd (setWaveParameters arg s))))
   = waves arg).
Proof.
  intros Hinit Hmode. split; intros Hw.
  - rewrite setWaveParameters_accepts by (rewrite ?Hw; cbn; auto; lia).
    cbn. rewrite fill_from_length, Hw. cbn. now rewrite Nat.sub_0_r.
  - rewrite setWaveParameters_accepts by (auto; lia).
    cbn. now apply fill_full.
Qed.

Lemma step_pushes_full_length (s : State) (i : Input) :
  delivers_full_length i ->
  length (waves (_waveParameters (this s))) = MAX_NUM_WAVES ->
  Forall pushes_full_length (trace (env s)) ->
  Forall pushes_full_length (trace (env (step s i))).
Proof.
  intros Hi Hs Ht.
  destruct i as [| | arg | ? | ? | [p | ? | ? |]];
    open_state s; unfold step, perform, deliver; run_m; break_if;
    repeat (apply Forall_app; split); auto;
    repeat constructor; cbn; auto.
  apply fill_length.
  match goal with
  | Hlt : (_ <? _) = false |- _ => apply Nat.ltb_ge in Hlt; exact Hlt
  end.
Qed.

(** X14: the bridge is never pushed a short array.  If the instance holds
    [MAX_NUM_WAVES] waves, every push so far carried [MAX_NUM_WAVES] waves
    and every delivery of the bridge does, then after any run every push to
    the bridge carries [MAX_NUM_WAVES] waves. *)
Theorem pushes_have_full_length (s : State) (inputs : list Input) :
  length (waves (waveParameters (this s))) = MAX_NUM_WAVES ->
  Forall pushes_full_length (trace (env s)) ->
  Forall delivers_full_length inputs ->
  Forall pushes_full_length (trace (env (run s inputs))).
Proof.
  unfold waveParameters. intros Hs Ht Hall. revert s Hs Ht.
  induction Hall as [|i inputs Hi _ IH]; intros s Hs Ht; [exact Ht|].
  rewrite run_cons. apply IH.
  - now apply step_waves_length.
  - now apply step_pushes_full_length.
Qed.

End Properties.

(** * The sample process *)

Section Sample.

Existing Instance sample.

(** ** The claims at concrete inputs *)

Lemma setWaveParameters_pads_to_capacity_witness :
  exists s0 : State,
    construct controller_options fresh = Returns s0 /\
    let s := step s0 (signal Ready) in
    _isInitialized (this s) = true /\
    _mode (this s) = controller /\
    length (waves two_waves) <= MAX_NUM_WAVES /\
    exists s' : State,
      setWaveParameters two_waves s = (Returns tt, s') /\
      length (waves (waveParameters (this s'))) = MAX_NUM_WAVES /\
      firstn 2 (waves (waveParameters (this s'))) = [1; 2] /\
      timePeriod (waveParameters (this s')) = Some DEFAULT_TIME_PERIOD /\
      distancePeriod (waveParameters (this s')) = Some DEFAULT_DISTANCE_PERIOD.
Proof.
  eexists. split; [reflexivity|]. cbv zeta.
  split; [reflexivity|]. split; [reflexivity|].
  split; [cbn; lia|].
  match goal with
  | |- exists s', setWaveParameters ?arg ?s = _ /\ _ =>
      destruct (@setWaveParameters_pads_to_capacity sample s arg)
        as (s' & Hrun & Hlen & Hfirst & _ & Htp & Hdp & _);
      [reflexivity | reflexivity | cbn; lia |]
  end.
  exists s'. split; [exact Hrun|]. split; [exact Hlen|].
  split; [exact Hfirst|].
  split; [apply Htp; reflexivity | apply Hdp; reflexivity].
Defined.

Lemma setWaveParameters_rejects_excess_witness :
  exists s0 : State,
    construct controller_options fresh = Returns s0 /\
    let s := step s0 (signal Ready) in
    _isInitialized (this s) = true /\
    _mode (this s) = controller /\
    MAX_NUM_WAVES < length (waves nine_waves) /\
    setWaveParameters nine_waves s = (Throws TooManyWavesError, s).
Proof.
  eexists. split; [reflexivity|]. cbv zeta.
  split; [reflexivity|]. split; [reflexivity|].
  split; [cbn; lia|].
  apply (@setWaveParameters_rejects_excess sample);
    [reflexivity | reflexivity | cbn; lia].
Defined.

Lemma methods_throw_before_initialized_witness :
  exists s0 : State,
    construct controller_options fresh = Returns s0 /\
    let s := run s0 an_early_run in
    initialized_emissions (trace (env s)) = initialized_emissions (trace fresh) /\
    start s = (Throws (NotInitializedError "start"%string), s) /\
    stop s = (Throws (NotInitializedError "stop"%string), s) /\
    setWaveParameters two_waves s
    = (Throws (NotInitializedError "setWaveParameters"%string), s).
Proof.
  eexists. split; [reflexivity|]. cbv zeta. split; [reflexivity|].
  match goal with
  | |- start (run ?s0 ?inputs) = _ /\ _ =>
      destruct (@methods_throw_before_initialized sample (run s0 inputs)
                  (or_intror
                     (ex_intro _ controller_options
                        (ex_intro _ fresh
                           (ex_intro _ s0
                              (ex_intro _ inputs
                                 (conj eq_refl (conj eq_refl eq_refl))))))))
        as (Hstart & Hstop & Hset)
  end.
  split; [exact Hstart|]. split; [exact Hstop|]. apply Hset.
Defined.

Lemma setWaveParameters_on_receiver_witness :
  exists s0 : State,
    construct default_options fresh = Returns s0 /\
    let s := step s0 (signal Ready) in
    _mode (this s) = receiver /\
    _isInitialized (this s) = true /\
    setWaveParameters two_waves s = (Throws (WrongRoleError receiver), s).
Proof.
  eexists. split; [reflexivity|]. cbv zeta.
  split; [reflexivity|]. split; [reflexivity|].
  match goal with
  | |- setWaveParameters ?arg ?s = _ =>
      exact (@setWaveParameters_on_receiver sample s arg eq_refl)
  end.
Defined.

Lemma waves_length_invariant_witness :
  exists s0 : State,
    construct controller_options fresh = Returns s0 /\
    Forall delivers_full_length a_run /\
    length (waves (waveParameters (this (run s0 a_run)))) = MAX_NUM_WAVES /\
    fst (setWaveParameters two_waves
           (run s0 [signal (WaveParametersReceived no_waves); signal Ready]))
    = Returns tt /\
    length (waves (waveParameters
      (this (run s0 ([signal (WaveParametersReceived no_waves); signal Ready]
                     ++ do_setWaveParameters two_waves :: [do_stop])))))
    = MAX_NUM_WAVES.
Proof.
  eexists. split; [reflexivity|].
  assert (Hall : Forall (@delivers_full_length sample) a_run)
    by (repeat constructor).
  assert (Hstop : Forall (@delivers_full_length sample) [do_stop])
    by (repeat constructor).
  split; [exact Hall|].
  match goal with
  | |- length (waves (waveParameters (this (run ?s0 _)))) = _ /\ _ =>
      destruct (@waves_length_invariant sample controller_options fresh s0
                  eq_refl)
        as (_ & Hrun & Hset & _)
  end.
  split; [exact (Hrun a_run Hall)|].
  split; [reflexivity|].
  exact (Hset [signal (WaveParametersReceived no_waves); signal Ready]
           [do_stop] two_waves eq_refl Hstop).
Defined.

Lemma initialized_emitted_per_ready_signal_witness :
  exists s0 : State,
    construct controller_options fresh = Returns s0 /\
    initialized_emissions (trace (env (run s0 a_run))) = 1.
Proof.
  eexists. split; [reflexivity|].
  exact (proj2 (proj2
    (@initialized_emitted_per_ready_signal sample controller_options fresh _
       a_run eq_refl))).
Defined.

(** The scenario of the specification: the bridge calls the power-state
    listener with [true]. *)
Lemma listeners_store_and_emit_witness :
  exists s0 : State,
    construct default_options fresh = Returns s0 /\
    let s := snd (onPowerStateUpdate true s0) in
    trace (env s)
    = trace (env s0) ++
      [Emit (powerStateUpdated true) (with_powerState true (this s0))] /\
    powerState (this s) = true /\
    Forall (fun i => writes_powerState i = false) a_run_without_power_news /\
    powerState (this (run s a_run_without_power_news)) = true.
Proof.
  eexists. split; [reflexivity|]. cbv zeta.
  split; [reflexivity|]. split; [reflexivity|].
  assert (Hall : Forall (fun i => @writes_powerState sample i = false)
                   a_run_without_power_news)
    by (repeat constructor).
  split; [exact Hall|].
  match goal with
  | |- powerState (this (run (snd (onPowerStateUpdate _ ?s)) _)) = _ =>
      exact (proj2 (proj1 (proj2 (@listeners_store_and_emit sample s)) true)
               a_run_without_power_news Hall)
  end.
Defined.

Lemma second_construction_throws_witness :
  exists s0 : State,
    construct controller_options fresh = Returns s0 /\
    lift (new_RVL default_options) (run s0 a_run)
    = (Throws AlreadyCreatedError, run s0 a_run).
Proof.
  eexists. split; [reflexivity|].
  exact (proj1
    (@second_construction_throws sample controller_options default_options
       fresh _ a_run eq_refl)).
Defined.

Lemma listeners_registered_before_init_witness :
  exists s0 : State,
    construct default_options fresh = Returns s0 /\
    ready_signals an_early_run = 0 /\
    let s := run s0 an_early_run in
    _isInitialized (this s) = false /\
    powerState (this s) = true /\
    deliver (BrightnessReceived 7%float) s
    = (Returns tt,
       {| this := with_brightness 7%float (this s);
          env := log (Emit (brightnessUpdated 7%float)
                           (with_brightness 7%float (this s)))
                     (env s) |}).
Proof.
  eexists. split; [reflexivity|]. split; [reflexivity|]. cbv zeta.
  match goal with
  | |- _isInitialized (this (run ?s0 _)) = _ /\ _ =>
      destruct (proj2 (@listeners_registered_before_init sample
                         default_options fresh s0 eq_refl)
                  an_early_run eq_refl)
        as (Hinit & _ & _ & Hbr)
  end.
  split; [exact Hinit|]. split; [reflexivity|]. apply Hbr.
Defined.

(** ** Outside the contract of the bridge *)

(** Why the invariant on the length needs the contract of the bridge: the
    listener stores what it is given, so a delivery with no wave, which
    that contract excludes, would leave an empty array. *)
Lemma short_delivery_breaks_waves_length :
  exists s0 : State,
    construct controller_options fresh = Returns s0 /\
    let s := run s0 [signal (WaveParametersReceived no_waves)] in
    length (waves (waveParameters (this s))) = 0 /\
    length (waves (waveParameters (this s))) <> MAX_NUM_WAVES.
Proof.
  eexists. split; [reflexivity|]. cbv zeta.
  split; [reflexivity|]. cbn. discriminate.
Qed.

(** ** Where the claims as first stated fail *)

(** C4 as stated fails: a receiver that is not yet initialized throws the
    not-initialized error, not the wrong-role error. *)
Lemma receiver_before_initialized_not_wrong_role :
  exists s0 : State,
    construct default_options fresh = Returns s0 /\
    mode (this s0) = receiver /\
    fst (setWaveParameters two_waves s0)
    = Throws (NotInitializedError "setWaveParameters"%string) /\
    fst (setWaveParameters two_waves s0) <> Throws (WrongRoleError receiver).
Proof.
  eexists. split; [reflexivity|]. split; [reflexivity|].
  split; [reflexivity|]. cbn. discriminate.
Qed.

(** C6 as stated fails: a second ready signal emits [initialized] a second
    time. *)
Lemma second_ready_signal_emits_again :
  exists s0 : State,
    construct controller_options fresh = Returns s0 /\
    initialized_emissions (trace (env (run s0 [signal Ready]))) = 1 /\
    initialized_emissions (trace (env (run s0 [signal Ready; signal Ready])))
    = 2.
Proof.
  eexists. split; [reflexivity|]. split; reflexivity.
Qed.

(** ** The further properties at concrete inputs *)

Lemma throwing_method_changes_nothing_witness :
  exists s0 : State,
    construct controller_options fresh = Returns s0 /\
    is_signal (@do_start sample) = false /\
    fst (perform do_start s0) = Throws (NotInitializedError "start"%string) /\
    snd (perform do_start s0) = s0.
Proof.
  eexists. split; [reflexivity|]. split; [reflexivity|].
  split; [reflexivity|].
  match goal with
  | |- snd (perform ?i ?s) = _ =>
      exact (@throwing_method_changes_nothing sample s i _ eq_refl eq_refl)
  end.
Defined.

Lemma start_stop_forward_when_initialized_witness :
  exists s0 : State,
    construct default_options fresh = Returns s0 /\
    let s := step s0 (signal Ready) in
    _isInitialized (this s) = true /\
    mode (this s) = receiver /\
    start s
    = (Returns tt, {| this := this s; env := log (Call Start) (env s) |}).
Proof.
  eexists. split; [reflexivity|]. cbv zeta.
  split; [reflexivity|]. split; [reflexivity|].
  match goal with
  | |- start ?s = _ =>
      exact (proj1 (@start_stop_forward_when_initialized sample s eq_refl))
  end.
Defined.

Lemma errors_of_each_method_witness :
  exists s0 : State,
    construct controller_options fresh = Returns s0 /\
    let s := step s0 (signal Ready) in
    fst (setWaveParameters nine_waves s) = Throws TooManyWavesError /\
    (TooManyWavesError = NotInitializedError "setWaveParameters"%string \/
     TooManyWavesError = WrongRoleError receiver \/
     TooManyWavesError = TooManyWavesError).
Proof.
  eexists. split; [reflexivity|]. cbv zeta.
  match goal with
  | |- fst (setWaveParameters ?arg ?s) = _ /\ _ =>
      split;
      [reflexivity
      |exact (proj1 (proj2 (proj2 (@errors_of_each_method sample s)))
                arg TooManyWavesError eq_refl)]
  end.
Defined.

Lemma messages_tell_errors_apart_witness :
  In (NotInitializedError "start"%string) thrown /\
  In (NotInitializedError "stop"%string) thrown /\
  NotInitializedError "start"%string <> NotInitializedError "stop"%string /\
  message (NotInitializedError "start"%string)
  <> message (NotInitializedError "stop"%string).
Proof.
  assert (H1 : In (NotInitializedError "start"%string) thrown)
    by (cbn; auto).
  assert (H2 : In (NotInitializedError "stop"%string) thrown)
    by (cbn; auto).
  assert (Hne : NotInitializedError "start"%string
                <> NotInitializedError "stop"%string)
    by discriminate.
  split; [exact H1|]. split; [exact H2|]. split; [exact Hne|].
  exact (@messages_tell_errors_apart sample _ _ H1 H2 Hne).
Defined.

Lemma initialized_iff_ready_signalled_witness :
  exists s0 : State,
    construct controller_options fresh = Returns s0 /\
    _isInitialized (this (run s0 an_early_run)) = false /\
    _isInitialized (this (run s0 a_run)) = true.
Proof.
  eexists. split; [reflexivity|]. split; [reflexivity|].
  exact (@initialized_iff_ready_signalled sample controller_options fresh _
           a_run eq_refl).
Defined.

Lemma initialized_for_good_witness :
  exists s0 : State,
    construct controller_options fresh = Returns s0 /\
    let s := step s0 (signal Ready) in
    _isInitialized (this s) = true /\
    _isInitialized (this (run s a_run)) = true.
Proof.
  eexists. split; [reflexivity|]. cbv zeta. split; [reflexivity|].
  match goal with
  | |- _isInitialized (this (run ?s _)) = _ =>
      exact (@initialized_for_good sample s a_run eq_refl)
  end.
Defined.

Lemma mode_is_fixed_at_construction_witness :
  exists s0 : State,
    construct default_options fresh = Returns s0 /\
    mode (this (run s0 a_run)) = receiver.
Proof.
  eexists. split; [reflexivity|].
  exact (@mode_is_fixed_at_construction sample default_options fresh _
           a_run eq_refl).
Defined.

Lemma one_event_per_signal_witness :
  exists s0 : State,
    construct controller_options fresh = Returns s0 /\
    signals a_run = 4 /\
    emissions (trace (env (run s0 a_run))) = 4.
Proof.
  eexists. split; [reflexivity|]. split; [reflexivity|].
  exact (@one_event_per_signal sample controller_options fresh _ a_run
           eq_refl).
Defined.

Lemma receiver_never_originates_witness :
  exists s0 : State,
    construct default_options fresh = Returns s0 /\
    mode (this s0) = receiver /\
    wave_pushes (trace (env (run s0 a_run_without_wave_news))) = 1 /\
    Forall (fun i => delivers_waveParameters i = false)
      a_run_without_wave_news /\
    waveParameters (this (run s0 a_run_without_wave_news))
    = waveParameters (this s0).
Proof.
  eexists. split; [reflexivity|]. split; [reflexivity|].
  assert (Hall : Forall (fun i => @delivers_waveParameters sample i = false)
                   a_run_without_wave_news)
    by (repeat constructor).
  match goal with
  | |- wave_pushes (trace (env (run ?s0 _))) = _ /\ _ =>
      destruct (@receiver_never_originates sample default_options fresh s0
                  a_run_without_wave_news eq_refl eq_refl)
        as (Hpushes & Hkept)
  end.
  split; [exact Hpushes|]. split; [exact Hall|]. exact (Hkept Hall).
Defined.

Lemma frozen_until_the_bridge_speaks_witness :
  exists s0 : State,
    construct controller_options fresh = Returns s0 /\
    _isInitialized (this s0) = false /\
    signals calls_only = 0 /\
    this (run s0 calls_only) = this s0.
Proof.
  eexists. split; [reflexivity|]. split; [reflexivity|].
  split; [reflexivity|].
  match goal with
  | |- this (run ?s0 _) = _ =>
      exact (@frozen_until_the_bridge_speaks sample s0 calls_only
               eq_refl eq_refl)
  end.
Defined.

Lemma setWaveParameters_again_is_stable_witness :
  exists s0 : State,
    construct controller_options fresh = Returns s0 /\
    let s := step s0 (signal Ready) in
    _isInitialized (this s) = true /\
    _mode (this s) = controller /\
    length (waves two_waves) <= MAX_NUM_WAVES /\
    let s1 := snd (setWaveParameters two_waves s) in
    this (snd (setWaveParameters (waveParameters (this s1)) s1)) = this s1.
Proof.
  eexists. split; [reflexivity|]. cbv zeta.
  split; [reflexivity|]. split; [reflexivity|].
  assert (Hlen : length (waves two_waves) <= @MAX_NUM_WAVES sample)
    by (cbn; lia).
  split; [exact Hlen|].
  match goal with
  | |- this (snd (setWaveParameters _ (snd (setWaveParameters _ ?s)))) = _ =>
      exact (proj2 (@setWaveParameters_again_is_stable sample s two_waves
                      eq_refl eq_refl Hlen))
  end.
Defined.

Lemma setWaveParameters_at_the_bounds_witness :
  exists s0 : State,
    construct controller_options fresh = Returns s0 /\
    let s := step s0 (signal Ready) in
    _isInitialized (this s) = true /\
    _mode (this s) = controller /\
    waves no_waves = [] /\
    waves (waveParameters (this (snd (setWaveParameters no_waves s))))
    = [0; 0; 0; 0; 0; 0; 0; 0].
Proof.
  eexists. split; [reflexivity|]. cbv zeta.
  split; [reflexivity|]. split; [reflexivity|]. split; [reflexivity|].
  match goal with
  | |- waves (waveParameters (this (snd (setWaveParameters _ ?s)))) = _ =>
      exact (proj1 (@setWaveParameters_at_the_bounds sample s no_waves
                      eq_refl eq_refl) eq_refl)
  end.
Defined.

Lemma pushes_have_full_length_witness :
  exists s0 : State,
    construct controller_options fresh = Returns s0 /\
    length (waves (waveParameters (this s0))) = MAX_NUM_WAVES /\
    Forall pushes_full_length (trace (env s0)) /\
    Forall delivers_full_length a_run /\
    Forall pushes_full_length (trace (env (run s0 a_run))).
Proof.
  eexists. split; [reflexivity|]. split; [reflexivity|].
  assert (Hall : Forall (@delivers_full_length sample) a_run)
    by (repeat constructor).
  match goal with
  | |- Forall _ (trace (env ?s0)) /\ _ =>
      assert (Ht : Forall (@pushes_full_length sample) (trace (env s0)))
        by (repeat constructor);
      split; [exact Ht|]; split; [exact Hall|];
      exact (@pushes_have_full_length sample s0 a_run eq_refl Ht Hall)
  end.
Defined.

End Sample.
